(** * beam_scheduler: material quantities, schedule table and reference tests

    A shallow embedding of [BeamQuantities] ([SRC/beam_design.py]), of
    [get_beam_table] ([SRC/beam_table.py]) and of the assertions of
    [testing/test_attic_L3_B1050.py].

    Numbers.  The quantities are embedded twice.  [BeamQuantities] works on
    exact rationals ([Q]), with [round(x, n)] as round-half-to-even at [n]
    decimals: it serves for bounds, inequalities and relations between the
    reported values.  [QuantitiesOver] has the same ten properties over any
    arithmetic; [Binary64.arith] is the arithmetic of Python's [float]
    (IEEE 754 binary64, with [round] going through the exact value of the
    double), and [Exact.arith] gives back [BeamQuantities].  Operations that
    can raise [ZeroDivisionError] ([/] and [**] with a negative exponent)
    return a [Result]. *)

From Stdlib Require Import ZArith QArith Qround Qabs List String Bool Lia Lqa.
From Stdlib Require PrimFloat FloatOps SpecFloat Uint63.
Import ListNotations.
Local Open Scope Q_scope.

(* ================================================================== *)
(** ** Exceptions *)

Module Py.

Inductive exn : Type :=
| ZeroDivisionError.

Inductive Result (A : Type) : Type :=
| Ok (a : A)
| Raise (e : exn).

Arguments Ok {A} a.
Arguments Raise {A} e.

Definition bind {A B : Type} (m : Result A) (k : A -> Result B) : Result B :=
  match m with
  | Ok a => k a
  | Raise e => Raise e
  end.

(** [try: body except ZeroDivisionError: handler]. *)
Definition try_except_zde {A : Type} (body : Result A) (handler : Result A)
  : Result A :=
  match body with
  | Ok a => Ok a
  | Raise ZeroDivisionError => handler
  end.

Definition raises {A : Type} (m : Result A) : bool :=
  match m with
  | Ok _ => false
  | Raise _ => true
  end.

(** [x / y] on numbers. *)
Definition truediv (x y : Q) : Result Q :=
  if Qeq_bool y 0 then Raise ZeroDivisionError else Ok (x / y).

(** [b ** e] for integer literals [b] and [e]. *)
Definition pow (b e : Z) : Result Q :=
  if ((b =? 0)%Z && (e <? 0)%Z)%bool then Raise ZeroDivisionError
  else Ok (Qpower (inject_Z b) e).

(** Nearest integer, ties to the even one. *)
Definition round_half_even (x : Q) : Z :=
  let f := Qfloor x in
  match Qcompare (x - inject_Z f) (1 # 2) with
  | Lt => f
  | Gt => (f + 1)%Z
  | Eq => if Z.even f then f else (f + 1)%Z
  end.

Definition pow10 (n : nat) : Z := (10 ^ Z.of_nat n)%Z.

(** [round(x, ndigits)] for [ndigits >= 0]. *)
Definition round (x : Q) (ndigits : nat) : Q :=
  Qmake (round_half_even (x * inject_Z (pow10 ndigits)))
        (Z.to_pos (pow10 ndigits)).

End Py.

Notation "x <- m ;; k" := (Py.bind m (fun x => k))
  (at level 61, m at next level, right associativity).

Import Py.

(* ================================================================== *)
(** ** Data model *)

(** The keys of the per-position dictionaries. *)
Inductive Position : Type :=
| left
| middle
| right.

Definition all_positions : list Position := [left; middle; right].

(** A dictionary with exactly the keys ["left"], ["middle"], ["right"]. *)
Record PosDict (A : Type) : Type := mkPosDict {
  at_left : A;
  at_middle : A;
  at_right : A
}.

Arguments mkPosDict {A} _ _ _.
Arguments at_left {A} _.
Arguments at_middle {A} _.
Arguments at_right {A} _.

Definition lookup {A : Type} (d : PosDict A) (p : Position) : A :=
  match p with
  | left => at_left d
  | middle => at_middle d
  | right => at_right d
  end.

Definition tabulate {A : Type} (f : Position -> A) : PosDict A :=
  mkPosDict (f left) (f middle) (f right).



(** [beam.Beam], with the fields its constructor is given in
    [testing/test_attic_L3_B1050.py]. *)
Record Beam : Type := mkBeam {
  storey : string;
  etabs_id : string;
  width : Q;
  depth : Q;
  span : Q;
  comp_conc_grade : Q;
  flex_overstressed : list bool;
  req_top_flex_reinf : list Q;
  req_bot_flex_reinf : list Q;
  req_torsion_flex_reinf : list Q;
  shear_force : list Q;
  shear_overstressed : list bool;
  req_shear_reinf : list Q;
  req_torsion_reinf : list Q
}.

(** One entry of [top_flex_rebar] / [bot_flex_rebar]. *)
Record FlexRebar : Type := mkFlexRebar {
  rebar_text : string;
  provided_reinf : Q;
  utilization : Q;
  diameter : list Z;
  solved : bool
}.

(** One entry of [shear_links]. *)
Record ShearLinks : Type := mkShearLinks {
  links_text : string;
  links_provided_reinf : Q;
  links_utilization : Q;
  links_diameter : Z;
  links_spacing : Z;
  links_solved : bool
}.

(** [sideface_rebar]. *)
Record SidefaceRebar : Type := mkSidefaceRebar {
  side_rebar_text : string;
  side_provided_reinf : Q;
  side_utilization : Q;
  side_diameter : Z;
  side_spacing : Z;
  side_solved : bool
}.

(** The attributes of [flexure.Flexure] that the tests read. *)
Record Flexure : Type := mkFlexure {
  flex_rebar_count : Z;
  top_flex_rebar : PosDict FlexRebar;
  bot_flex_rebar : PosDict FlexRebar;
  residual_rebar : PosDict Q
}.

(** The attributes of [shear.Shear] that the tests read. *)
Record Shear : Type := mkShear {
  shear_links_count : list Z;
  total_req_shear : list Q;
  shear_spacing : list Z;
  shear_center_spacing : list Z;
  shear_links : PosDict ShearLinks
}.

(** The attributes of [sideface.Sideface] that the tests read. *)
Record Sideface : Type := mkSideface {
  required_torsion_reinforcement : PosDict Q;
  total_required_torsion_reinforcement : Q;
  sideface_clearspace : Q;
  sideface_rebar : SidefaceRebar
}.

(** [BeamDesign]: the beam object is held once and shared by the three
    designers, as in [__init__], where each designer receives [self.beam]
    and the designers built before it. *)
Record BeamDesign : Type := mkBeamDesign {
  beam : Beam;
  flexural_design : Flexure;
  shear_design : Shear;
  sideface_design : Sideface
}.

(* ================================================================== *)
(** ** BeamQuantities (beam_design.py, lines 122-302) *)

Module BeamQuantities.

Section Properties.

Variable designed_beam : BeamDesign.

Let self_span : Q := span (beam designed_beam).
Let self_width : Q := width (beam designed_beam).
Let self_depth : Q := depth (beam designed_beam).

Definition conc_area : Result Q :=
  p <- Py.pow 10 (-6) ;;
  Ok ((self_width * self_depth) * p).

Definition conc_volume : Result Q :=
  a <- conc_area ;;
  p <- Py.pow 10 (-3) ;;
  Ok (Py.round ((a * self_span) * p) 3).

Definition flex_area : Result Q :=
  let fd := flexural_design designed_beam in
  p <- Py.pow 10 (-6) ;;
  Ok (Py.round
        ((provided_reinf (lookup (top_flex_rebar fd) left)
          + provided_reinf (lookup (top_flex_rebar fd) middle)
          + provided_reinf (lookup (top_flex_rebar fd) right)
          + provided_reinf (lookup (bot_flex_rebar fd) left)
          + provided_reinf (lookup (bot_flex_rebar fd) middle)
          + provided_reinf (lookup (bot_flex_rebar fd) right))
         * p)
        3).

Definition flex_volume : Result Q :=
  a <- flex_area ;;
  p <- Py.pow 10 (-3) ;;
  Ok (Py.round ((a * self_span) * p) 3).

Definition shear_area : Result Q :=
  let sd := shear_design designed_beam in
  p <- Py.pow 10 (-6) ;;
  Ok (Py.round
        ((links_provided_reinf (lookup (shear_links sd) left)
          + links_provided_reinf (lookup (shear_links sd) middle)
          + links_provided_reinf (lookup (shear_links sd) right))
         * p)
        3).

(** The body of the [try] block of [shear_volume]. *)
Definition shear_volume_try : Result Q :=
  let sd := shear_design designed_beam in
  l <- Py.truediv self_span 1000 ;;
  m <- Py.truediv self_span 1000 ;;
  r <- Py.truediv self_span 1000 ;;
  p <- Py.pow 10 (-6) ;;
  Ok (Py.round
        ((links_provided_reinf (lookup (shear_links sd) left) * l
          + links_provided_reinf (lookup (shear_links sd) middle) * m
          + links_provided_reinf (lookup (shear_links sd) right) * r)
         * p)
        3).

Definition shear_volume : Result Q :=
  Py.try_except_zde shear_volume_try (Ok 0).

Definition sideface_area : Result Q :=
  p <- Py.pow 10 (-6) ;;
  Ok (side_provided_reinf (sideface_rebar (sideface_design designed_beam)) * p).

Definition sideface_volume : Result Q :=
  a <- sideface_area ;;
  p <- Py.pow 10 (-3) ;;
  Ok (Py.round ((a * self_span) * p) 3).

Definition total_rebar_area : Result Q :=
  f <- flex_area ;;
  s <- shear_area ;;
  t <- sideface_area ;;
  Ok (Py.round (f + s + t) 3).

Definition total_rebar_volume : Result Q :=
  f <- flex_volume ;;
  s <- shear_volume ;;
  t <- sideface_volume ;;
  Ok (Py.round (f + s + t) 3).

End Properties.

(** The nine quantity properties, by name. *)
Inductive property : Type :=
| Pconc_area | Pconc_volume
| Pflex_area | Pflex_volume
| Pshear_area | Pshear_volume
| Psideface_area | Psideface_volume
| Ptotal_rebar_area | Ptotal_rebar_volume.

Definition get (d : BeamDesign) (p : property) : Result Q :=
  match p with
  | Pconc_area => conc_area d
  | Pconc_volume => conc_volume d
  | Pflex_area => flex_area d
  | Pflex_volume => flex_volume d
  | Pshear_area => shear_area d
  | Pshear_volume => shear_volume d
  | Psideface_area => sideface_area d
  | Psideface_volume => sideface_volume d
  | Ptotal_rebar_area => total_rebar_area d
  | Ptotal_rebar_volume => total_rebar_volume d
  end.

Definition is_volume (p : property) : bool :=
  match p with
  | Pconc_volume | Pflex_volume | Pshear_volume | Psideface_volume
  | Ptotal_rebar_volume => true
  | _ => false
  end.

End BeamQuantities.

(* ================================================================== *)
(** ** get_beam_table (beam_table.py) *)

Module BeamTable.

Local Open Scope string_scope.

(** A cell of a data frame. *)
Inductive cell : Type :=
| PyNone
| PyNum (q : Q)
| PyStr (s : string).

(** A [pd.DataFrame] as [get_beam_table] builds it: column labels, index
    labels and the cells, row by row. *)
Record DataFrame (L : Type) : Type := mkDataFrame {
  columns : list L;
  index : list Z;
  rows : list (list cell)
}.

Arguments mkDataFrame {L} _ _ _.
Arguments columns {L} _.
Arguments index {L} _.
Arguments rows {L} _.

(** [pd.MultiIndex.from_tuples]: the tuples, in the order given. *)
Definition MultiIndex_from_tuples (tuples : list (string * string))
  : list (string * string) := tuples.

(** [pd.DataFrame(columns=columns)]: no index, no rows. *)
Definition DataFrame_columns {L : Type} (cols : list L) : DataFrame L :=
  mkDataFrame cols [] [].

(** [pd.DataFrame(data, index=index)] for a dictionary of scalars, given as
    its items in insertion order: one column per key, each scalar repeated
    on every row of the index. *)
Definition DataFrame_scalars (data : list (string * cell)) (idx : list Z)
  : DataFrame string :=
  mkDataFrame (map fst data) idx (map (fun _ => map snd data) idx).

Definition get_beam_table (_ : unit)
  : DataFrame (string * string) * DataFrame string :=
  let columns :=
    MultiIndex_from_tuples
      [ ("Storey", EmptyString);
        ("Etabs ID", EmptyString);
        ("Span (mm)", EmptyString);
        ("Dimensions", "Width (mm)");
        ("Dimensions", "Depth (mm)");
        ("Bottom Reinforcement", "Left (BL)");
        ("Bottom Reinforcement", "Middle (B)");
        ("Bottom Reinforcement", "Right (BR)");
        ("Top Reinforcement", "Left (TL)");
        ("Top Reinforcement", "Middle (T)");
        ("Top Reinforcement", "Right (TR)");
        ("Side Face Reinforcement", EmptyString);
        ("Shear links", "Left (H)");
        ("Shear links", "Middle (J)");
        ("Shear links", "Right (K)");
        ("Flexural BL Criteria", "Required (mm^2)");
        ("Flexural BL Criteria", "Provided (mm^2)");
        ("Flexural BL Criteria", "Utilization (%)");
        ("Flexural BM Criteria", "Required (mm^2)");
        ("Flexural BM Criteria", "Provided (mm^2)");
        ("Flexural BM Criteria", "Utilization (%)");
        ("Flexural BR Criteria", "Required (mm^2)");
        ("Flexural BR Criteria", "Provided (mm^2)");
        ("Flexural BR Criteria", "Utilization (%)");
        ("Flexural TL Criteria", "Required (mm^2)");
        ("Flexural TL Criteria", "Provided (mm^2)");
        ("Flexural TL Criteria", "Utilization (%)");
        ("Flexural TM Criteria", "Required (mm^2)");
        ("Flexural TM Criteria", "Provided (mm^2)");
        ("Flexural TM Criteria", "Utilization (%)");
        ("Flexural TR Criteria", "Required (mm^2)");
        ("Flexural TR Criteria", "Provided (mm^2)");
        ("Flexural TR Criteria", "Utilization (%)");
        ("Sideface Criteria", "Required (mm^2)");
        ("Sideface Criteria", "Provided (mm^2)");
        ("Sideface Criteria", "Utilization (%)");
        ("Shear L Criteria", "Required (mm^2)");
        ("Shear L Criteria", "Provided (mm^2)");
        ("Shear L Criteria", "Utilization (%)");
        ("Shear M Criteria", "Required (mm^2)");
        ("Shear M Criteria", "Provided (mm^2)");
        ("Shear M Criteria", "Utilization (%)");
        ("Shear R Criteria", "Required (mm^2)");
        ("Shear R Criteria", "Provided (mm^2)");
        ("Shear R Criteria", "Utilization (%)") ] in
  let quantities :=
    [ ("Storey", PyNone);
      ("Etabs ID", PyNone);
      ("Span (mm)", PyNone);
      ("Width (mm)", PyNone);
      ("Depth (mm)", PyNone);
      ("Concrete Area (m^2)", PyNone);
      ("Concrete Volume (m^3)", PyNone);
      ("Flexural Rebar Area (m^2)", PyNone);
      ("Flexural Rebar Volume (m^3)", PyNone);
      ("Shear Rebar Area (m^2)", PyNone);
      ("Shear Rebar Volume (m^3)", PyNone);
      ("Sideface Rebar Area (m^2)", PyNone);
      ("Sideface Rebar Volume (m^3)", PyNone);
      ("Total Rebar Area (m^2)", PyNone);
      ("Total Rebar Volume (m^3)", PyNone) ] in
  let beam_schedule_df := DataFrame_columns columns in
  let quantities_schedule_df := DataFrame_scalars quantities [0%Z] in
  (beam_schedule_df, quantities_schedule_df).

Definition label_eq_dec (a b : string * string) : {a = b} + {a <> b}.
Proof. decide equality; apply string_dec. Defined.

Fixpoint nodupb {A : Type} (dec : forall a b : A, {a = b} + {a <> b})
  (l : list A) : bool :=
  match l with
  | [] => true
  | a :: l' => if in_dec dec a l' then false else nodupb dec l'
  end.

Definition is_none (c : cell) : bool :=
  match c with
  | PyNone => true
  | _ => false
  end.

End BeamTable.

(* ================================================================== *)
(** ** The reference case (testing/test_attic_L3_B1050.py) *)

Module Reference.

(** The [example_beam] fixture: beam B1050 at Attic Level-3. *)
Definition example_beam : Beam :=
  mkBeam "Attic Level-3" "B1050" 400 750 8619 45
         [false; false]
         [1979; 703; 1979]
         [1230; 1099; 1053]
         [0; 0; 0]
         [237; 187; 216]
         [false; false]
         [0; 0; 0]
         [0; 0; 0].

(** The flexural and shear figures that the tests assert, entered directly:
    [_assert_flex_rebar] for the six slots, [test_residual_rebar], and
    [_assert_shear_link] for the three zones. *)
Definition asserted_flexure : Flexure :=
  mkFlexure 3
    (mkPosDict (mkFlexRebar "3T25 + 3T16" 2076 (953 # 10) [25; 16]%Z true)
               (mkFlexRebar "3T20" 942 (746 # 10) [20]%Z true)
               (mkFlexRebar "3T25 + 3T16" 2076 (953 # 10) [25; 16]%Z true))
    (mkPosDict (mkFlexRebar "3T25" 1473 (835 # 10) [25]%Z true)
               (mkFlexRebar "3T16 + 3T16" 1206 (911 # 10) [16; 16]%Z true)
               (mkFlexRebar "3T16 + 3T16" 1206 (873 # 10) [16; 16]%Z true))
    (mkPosDict 340 346 250).

Definition asserted_shear_links : PosDict ShearLinks :=
  mkPosDict (mkShearLinks "2L-T12@125" 1810 0 12 125 true)
            (mkShearLinks "2L-T12@250" 905 0 12 250 true)
            (mkShearLinks "2L-T12@125" 1810 0 12 125 true).

End Reference.

(* ================================================================== *)
(** ** Reference formulas of the specification *)

(** The cross-sectional area in square metres times the span in metres. *)
Definition exact_conc_volume (b : Beam) : Q :=
  (width b / 1000) * (depth b / 1000) * (span b / 1000).

Definition flex_provided_sum (d : BeamDesign) : Q :=
  let fd := flexural_design d in
  provided_reinf (lookup (top_flex_rebar fd) left)
  + provided_reinf (lookup (top_flex_rebar fd) middle)
  + provided_reinf (lookup (top_flex_rebar fd) right)
  + provided_reinf (lookup (bot_flex_rebar fd) left)
  + provided_reinf (lookup (bot_flex_rebar fd) middle)
  + provided_reinf (lookup (bot_flex_rebar fd) right).

Definition links_provided_sum (d : BeamDesign) : Q :=
  let sd := shear_design d in
  links_provided_reinf (lookup (shear_links sd) left)
  + links_provided_reinf (lookup (shear_links sd) middle)
  + links_provided_reinf (lookup (shear_links sd) right).

(** The volume formula of the specification: total provided area times
    span, converted to cubic metres, rounded once. *)
Definition volume_of_area (area_mm2 span_mm : Q) : Q :=
  Py.round (area_mm2 * 10 ^ (-6) * span_mm * 10 ^ (-3)) 3.

(** A designed beam carrying the flexural selections and links that the
    tests assert for the reference case. *)
Definition asserted_design : BeamDesign :=
  mkBeamDesign Reference.example_beam Reference.asserted_flexure
    (mkShear [2; 3]%Z [0; 0; 0] [125; 100]%Z [250; 200; 150; 125; 100]%Z
             Reference.asserted_shear_links)
    (mkSideface (mkPosDict 0 0 0) 0 503
                (mkSidefaceRebar "T16@250 EF" 806 0 16 250 true)).

(* ================================================================== *)
(** ** Reading the quantities *)

Definition value (m : Result Q) : Q :=
  match m with
  | Ok v => v
  | Raise _ => 0
  end.

(** The number a quantity property returns. *)
Definition quantity (d : BeamDesign) (p : BeamQuantities.property) : Q :=
  value (BeamQuantities.get d p).

(** Non-negative width and depth, and non-negative provided areas in every
    selection the quantities read. *)
Definition nonneg_design (d : BeamDesign) : Prop :=
  0 <= width (beam d)
  /\ 0 <= depth (beam d)
  /\ (forall p,
        0 <= provided_reinf (lookup (top_flex_rebar (flexural_design d)) p)
        /\ 0 <= provided_reinf (lookup (bot_flex_rebar (flexural_design d)) p)
        /\ 0 <= links_provided_reinf (lookup (shear_links (shear_design d)) p))
  /\ 0 <= side_provided_reinf (sideface_rebar (sideface_design d)).

(** The same beam with another span. *)
Definition set_span (b : Beam) (s : Q) : Beam :=
  mkBeam (storey b) (etabs_id b) (width b) (depth b) s (comp_conc_grade b)
         (flex_overstressed b) (req_top_flex_reinf b) (req_bot_flex_reinf b)
         (req_torsion_flex_reinf b) (shear_force b) (shear_overstressed b)
         (req_shear_reinf b) (req_torsion_reinf b).

Definition with_span (d : BeamDesign) (s : Q) : BeamDesign :=
  mkBeamDesign (set_span (beam d) s) (flexural_design d) (shear_design d)
               (sideface_design d).

(** The same beam with width and depth exchanged. *)
Definition turned (d : BeamDesign) : BeamDesign :=
  let b := beam d in
  mkBeamDesign
    (mkBeam (storey b) (etabs_id b) (depth b) (width b) (span b)
            (comp_conc_grade b) (flex_overstressed b) (req_top_flex_reinf b)
            (req_bot_flex_reinf b) (req_torsion_flex_reinf b) (shear_force b)
            (shear_overstressed b) (req_shear_reinf b) (req_torsion_reinf b))
    (flexural_design d) (shear_design d) (sideface_design d).

(** *** The BeamQuantities object (beam_design.py, lines 137-148)

    [__init__] keeps a reference to the design object and copies five
    attributes of its beam; the properties read the copies for the geometry
    and go through the reference for the reinforcement. *)

Module QuantitiesObject.

Record t : Type := mk {
  self_storey : string;
  self_etabs_id : string;
  self_span : Q;
  self_width : Q;
  self_depth : Q
}.

(** [BeamQuantities.__init__]. *)
Definition init (designed_beam : BeamDesign) : t :=
  mk (storey (beam designed_beam)) (etabs_id (beam designed_beam))
     (span (beam designed_beam)) (width (beam designed_beam))
     (depth (beam designed_beam)).

(** What a property sees when it is read: the attributes copied by
    [__init__], and the designers of the referenced design object in the
    state [now] it has at that moment. *)
Definition view (self : t) (now : BeamDesign) : BeamDesign :=
  let b := beam now in
  mkBeamDesign
    (mkBeam (self_storey self) (self_etabs_id self) (self_width self)
            (self_depth self) (self_span self) (comp_conc_grade b)
            (flex_overstressed b) (req_top_flex_reinf b)
            (req_bot_flex_reinf b) (req_torsion_flex_reinf b) (shear_force b)
            (shear_overstressed b) (req_shear_reinf b) (req_torsion_reinf b))
    (flexural_design now) (shear_design now) (sideface_design now).

Definition read (self : t) (now : BeamDesign) (p : BeamQuantities.property)
  : Result Q :=
  BeamQuantities.get (view self now) p.

End QuantitiesObject.

(** [d2] has the beam of [d1] and at least its provided area in every
    selection the quantities read. *)
Definition provides_no_less (d1 d2 : BeamDesign) : Prop :=
  beam d2 = beam d1
  /\ (forall p,
        provided_reinf (lookup (top_flex_rebar (flexural_design d1)) p)
        <= provided_reinf (lookup (top_flex_rebar (flexural_design d2)) p)
        /\ provided_reinf (lookup (bot_flex_rebar (flexural_design d1)) p)
           <= provided_reinf (lookup (bot_flex_rebar (flexural_design d2)) p)
        /\ links_provided_reinf (lookup (shear_links (shear_design d1)) p)
           <= links_provided_reinf (lookup (shear_links (shear_design d2)) p))
  /\ side_provided_reinf (sideface_rebar (sideface_design d1))
     <= side_provided_reinf (sideface_rebar (sideface_design d2)).

Definition is_rebar (p : BeamQuantities.property) : bool :=
  match p with
  | BeamQuantities.Pconc_area | BeamQuantities.Pconc_volume => false
  | _ => true
  end.

(** Two designs with equal width, depth and span and equal provided areas
    in all ten selections; every other attribute is free. *)
Definition same_measures (d1 d2 : BeamDesign) : Prop :=
  width (beam d1) == width (beam d2)
  /\ depth (beam d1) == depth (beam d2)
  /\ span (beam d1) == span (beam d2)
  /\ (forall p,
        provided_reinf (lookup (top_flex_rebar (flexural_design d1)) p)
        == provided_reinf (lookup (top_flex_rebar (flexural_design d2)) p)
        /\ provided_reinf (lookup (bot_flex_rebar (flexural_design d1)) p)
           == provided_reinf (lookup (bot_flex_rebar (flexural_design d2)) p)
        /\ links_provided_reinf (lookup (shear_links (shear_design d1)) p)
           == links_provided_reinf (lookup (shear_links (shear_design d2)) p))
  /\ side_provided_reinf (sideface_rebar (sideface_design d1))
     == side_provided_reinf (sideface_rebar (sideface_design d2)).

(** The reference beam with its identity, grade and demands blanked and the
    span written as another fraction; the designers hold only the asserted
    provided areas. *)
Definition bare_design : BeamDesign :=
  let bare a := mkFlexRebar EmptyString a 0 [] false in
  let bare_links a := mkShearLinks EmptyString a 0 0 0 false in
  mkBeamDesign
    (mkBeam EmptyString EmptyString 400 750 (17238 # 2) 0
            [] [] [] [] [] [] [] [])
    (mkFlexure 0
               (mkPosDict (bare 2076) (bare 942) (bare 2076))
               (mkPosDict (bare 1473) (bare 1206) (bare 1206))
               (mkPosDict 0 0 0))
    (mkShear [] [] [] []
             (mkPosDict (bare_links 1810) (bare_links 905) (bare_links 1810)))
    (mkSideface (mkPosDict 0 0 0) 0 0
                (mkSidefaceRebar EmptyString 806 0 0 0 false)).

(** The reference design with more steel in the three top slots (3T32,
    2413 mm2 each). *)
Definition heavier_design : BeamDesign :=
  let f := flexural_design asserted_design in
  let more r := mkFlexRebar (rebar_text r) 2413 (utilization r) (diameter r)
                            (solved r) in
  mkBeamDesign (beam asserted_design)
    (mkFlexure (flex_rebar_count f)
               (tabulate (fun p => more (lookup (top_flex_rebar f) p)))
               (bot_flex_rebar f) (residual_rebar f))
    (shear_design asserted_design) (sideface_design asserted_design).

(* ================================================================== *)
(** ** The quantities over any arithmetic *)

Module Arith.

(** The operations the quantity properties use: numbers made from integer
    literals, [+], [*], [/], the test a division makes of its divisor,
    [b ** e] on integers, and [round(x, n)]. *)
Record t : Type := mk {
  num : Type;
  lit : Z -> num;
  add : num -> num -> num;
  mul : num -> num -> num;
  div : num -> num -> num;
  is_zero : num -> bool;
  int_pow : Z -> Z -> num;
  round : num -> nat -> num;
  lit_1000_not_zero : is_zero (lit 1000) = false
}.

(** [x / y]. *)
Definition truediv (A : t) (x y : num A) : Result (num A) :=
  if is_zero A y then Raise ZeroDivisionError else Ok (div A x y).

(** [b ** e] for integer literals [b] and [e]. *)
Definition pow (A : t) (b e : Z) : Result (num A) :=
  if ((b =? 0)%Z && (e <? 0)%Z)%bool then Raise ZeroDivisionError
  else Ok (int_pow A b e).

End Arith.

(** What the properties of a [BeamQuantities] object read: [self.span],
    [self.width], [self.depth] and the [provided_reinf] entries of
    [top_flex_rebar], [bot_flex_rebar], [shear_links] and
    [sideface_rebar]. *)
Record Measures (F : Type) : Type := mkMeasures {
  m_width : F;
  m_depth : F;
  m_span : F;
  m_top : PosDict F;
  m_bot : PosDict F;
  m_links : PosDict F;
  m_side : F
}.

Arguments mkMeasures {F} _ _ _ _ _ _ _.
Arguments m_width {F} _.
Arguments m_depth {F} _.
Arguments m_span {F} _.
Arguments m_top {F} _.
Arguments m_bot {F} _.
Arguments m_links {F} _.
Arguments m_side {F} _.

Definition measures (d : BeamDesign) : Measures Q :=
  mkMeasures
    (width (beam d)) (depth (beam d)) (span (beam d))
    (tabulate (fun p =>
                 provided_reinf (lookup (top_flex_rebar (flexural_design d)) p)))
    (tabulate (fun p =>
                 provided_reinf (lookup (bot_flex_rebar (flexural_design d)) p)))
    (tabulate (fun p =>
                 links_provided_reinf
                   (lookup (shear_links (shear_design d)) p)))
    (side_provided_reinf (sideface_rebar (sideface_design d))).

Declare Scope num_scope.
Delimit Scope num_scope with num.

(** The ten properties of [BeamQuantities] (beam_design.py, lines 150-302),
    operation by operation, over an arithmetic [A]. *)
Module QuantitiesOver.

Section Properties.

Variable A : Arith.t.
Variable self : Measures (Arith.num A).

Local Notation "x + y" := (Arith.add A x y) : num_scope.
Local Notation "x * y" := (Arith.mul A x y) : num_scope.
Local Open Scope num_scope.

Definition conc_area : Result (Arith.num A) :=
  p <- Arith.pow A 10 (-6) ;;
  Ok ((m_width self * m_depth self) * p).

Definition conc_volume : Result (Arith.num A) :=
  a <- conc_area ;;
  p <- Arith.pow A 10 (-3) ;;
  Ok (Arith.round A ((a * m_span self) * p) 3).

Definition flex_area : Result (Arith.num A) :=
  p <- Arith.pow A 10 (-6) ;;
  Ok (Arith.round A
        ((lookup (m_top self) left
          + lookup (m_top self) middle
          + lookup (m_top self) right
          + lookup (m_bot self) left
          + lookup (m_bot self) middle
          + lookup (m_bot self) right)
         * p)
        3).

Definition flex_volume : Result (Arith.num A) :=
  a <- flex_area ;;
  p <- Arith.pow A 10 (-3) ;;
  Ok (Arith.round A ((a * m_span self) * p) 3).

Definition shear_area : Result (Arith.num A) :=
  p <- Arith.pow A 10 (-6) ;;
  Ok (Arith.round A
        ((lookup (m_links self) left
          + lookup (m_links self) middle
          + lookup (m_links self) right)
         * p)
        3).

(** The body of the [try] block of [shear_volume]. *)
Definition shear_volume_try : Result (Arith.num A) :=
  l <- Arith.truediv A (m_span self) (Arith.lit A 1000) ;;
  m <- Arith.truediv A (m_span self) (Arith.lit A 1000) ;;
  r <- Arith.truediv A (m_span self) (Arith.lit A 1000) ;;
  p <- Arith.pow A 10 (-6) ;;
  Ok (Arith.round A
        ((lookup (m_links self) left * l
          + lookup (m_links self) middle * m
          + lookup (m_links self) right * r)
         * p)
        3).

Definition shear_volume : Result (Arith.num A) :=
  Py.try_except_zde shear_volume_try (Ok (Arith.lit A 0)).

Definition sideface_area : Result (Arith.num A) :=
  p <- Arith.pow A 10 (-6) ;;
  Ok (m_side self * p).

Definition sideface_volume : Result (Arith.num A) :=
  a <- sideface_area ;;
  p <- Arith.pow A 10 (-3) ;;
  Ok (Arith.round A ((a * m_span self) * p) 3).

Definition total_rebar_area : Result (Arith.num A) :=
  f <- flex_area ;;
  s <- shear_area ;;
  t <- sideface_area ;;
  Ok (Arith.round A (f + s + t) 3).

Definition total_rebar_volume : Result (Arith.num A) :=
  f <- flex_volume ;;
  s <- shear_volume ;;
  t <- sideface_volume ;;
  Ok (Arith.round A (f + s + t) 3).

Definition get (p : BeamQuantities.property) : Result (Arith.num A) :=
  match p with
  | BeamQuantities.Pconc_area => conc_area
  | BeamQuantities.Pconc_volume => conc_volume
  | BeamQuantities.Pflex_area => flex_area
  | BeamQuantities.Pflex_volume => flex_volume
  | BeamQuantities.Pshear_area => shear_area
  | BeamQuantities.Pshear_volume => shear_volume
  | BeamQuantities.Psideface_area => sideface_area
  | BeamQuantities.Psideface_volume => sideface_volume
  | BeamQuantities.Ptotal_rebar_area => total_rebar_area
  | BeamQuantities.Ptotal_rebar_volume => total_rebar_volume
  end.

End Properties.

End QuantitiesOver.

(** *** Exact arithmetic *)

Module Exact.

Definition arith : Arith.t :=
  Arith.mk Q inject_Z Qplus Qmult Qdiv (fun y => Qeq_bool y 0)
           (fun b e => Qpower (inject_Z b) e) Py.round eq_refl.

End Exact.

(** *** Python's float *)

Module Binary64.

(** The exact value of a finite double. *)
Definition to_Q (x : PrimFloat.float) : option Q :=
  match FloatOps.Prim2SF x with
  | SpecFloat.S754_zero _ => Some 0
  | SpecFloat.S754_finite s m e =>
      let v := match e with
               | Z0 => inject_Z (Zpos m)
               | Zpos p => inject_Z (Zpos m * 2 ^ Zpos p)
               | Zneg p => Qmake (Zpos m) (2 ^ p)
               end in
      Some (if s then - v else v)
  | _ => None
  end.

(** The double of an integer (exact below 2 ** 53 in absolute value). *)
Definition of_Z (k : Z) : PrimFloat.float :=
  if (k <? 0)%Z then PrimFloat.opp (PrimFloat.of_uint63 (Uint63.of_Z (- k)))
  else PrimFloat.of_uint63 (Uint63.of_Z k).

(** The double nearest to [k * 10 ** -n], which is how the literal is read:
    [decimal 3655 3] is [3.655]. *)
Definition decimal (k : Z) (n : nat) : PrimFloat.float :=
  PrimFloat.div (of_Z k) (of_Z (Py.pow10 n)).

(** [round(x, n)] on a float: the decimal with [n] digits nearest to the
    exact value of [x] (ties to even), read back as a double; infinities
    and NaN are returned as they are.  Meant for [|x| * 10 ** n] below
    [2 ** 53]. *)
Definition round (x : PrimFloat.float) (n : nat) : PrimFloat.float :=
  match to_Q x with
  | Some q => decimal (Py.round_half_even (q * inject_Z (Py.pow10 n))) n
  | None => x
  end.

(** [b ** e] on integers: for a negative exponent the double nearest to the
    power, for the others the double of the integer power. *)
Definition int_pow (b e : Z) : PrimFloat.float :=
  if (e <? 0)%Z then PrimFloat.div (of_Z 1) (of_Z (b ^ (- e)))
  else of_Z (b ^ e).

Definition arith : Arith.t :=
  Arith.mk PrimFloat.float of_Z PrimFloat.add PrimFloat.mul PrimFloat.div
           (fun y => PrimFloat.eqb y (of_Z 0)) int_pow round eq_refl.

(** Geometry and provided areas given as integers. *)
Definition beam_of (w d s : Z) (top bot links : PosDict Z) (side : Z)
  : Measures PrimFloat.float :=
  mkMeasures (of_Z w) (of_Z d) (of_Z s)
             (tabulate (fun p => of_Z (lookup top p)))
             (tabulate (fun p => of_Z (lookup bot p)))
             (tabulate (fun p => of_Z (lookup links p)))
             (of_Z side).

Definition plain (w d s : Z) : Measures PrimFloat.float :=
  beam_of w d s (mkPosDict 0 0 0)%Z (mkPosDict 0 0 0)%Z (mkPosDict 0 0 0)%Z 0.

End Binary64.

(* ================================================================== *)
(** ** The assertions of testing/test_attic_L3_B1050.py *)

Module Tests.
















End Tests.
(* ================================================================== *)
(** ** Facts about the numeric layer *)

Lemma round_half_even_comp (x y : Q) :
  x == y -> Py.round_half_even x = Py.round_half_even y.
Proof.
  intros E. unfold Py.round_half_even.
  rewrite (Qfloor_comp _ _ E).
  assert (C : Qcompare (x - inject_Z (Qfloor y)) (1 # 2)
              = Qcompare (y - inject_Z (Qfloor y)) (1 # 2)).
  { apply Qcompare_comp; [rewrite E|]; reflexivity. }
  rewrite C. reflexivity.
Qed.

Lemma round_comp (x y : Q) (n : nat) :
  x == y -> Py.round x n = Py.round y n.
Proof.
  intros E. unfold Py.round.
  rewrite (round_half_even_comp (x * inject_Z (Py.pow10 n))
                                (y * inject_Z (Py.pow10 n))).
  - reflexivity.
  - rewrite E. reflexivity.
Qed.

Lemma round_half_even_error (x : Q) :
  Qabs (inject_Z (Py.round_half_even x) - x) <= 1 # 2.
Proof.
  unfold Py.round_half_even.
  pose proof (Qfloor_le x) as Hlo.
  pose proof (Qlt_floor x) as Hhi.
  rewrite inject_Z_plus in Hhi. change (inject_Z 1) with 1 in Hhi.
  apply Qabs_Qle_condition.
  destruct (Qcompare (x - inject_Z (Qfloor x)) (1 # 2)) eqn:C.
  - apply Qeq_alt in C.
    destruct (Z.even (Qfloor x));
      [|rewrite inject_Z_plus; change (inject_Z 1) with 1]; lra.
  - apply Qlt_alt in C. lra.
  - apply Qgt_alt in C. rewrite inject_Z_plus. change (inject_Z 1) with 1. lra.
Qed.

Lemma Qfloor_unique (x : Q) (k : Z) :
  inject_Z k <= x -> x < inject_Z k + 1 -> Qfloor x = k.
Proof.
  intros Hlo Hhi.
  pose proof (Qfloor_resp_le _ _ Hlo) as H1. rewrite Qfloor_Z in H1.
  pose proof (Qfloor_le x) as H2.
  assert (H3 : inject_Z (Qfloor x) < inject_Z (k + 1)).
  { rewrite inject_Z_plus. change (inject_Z 1) with 1. lra. }
  rewrite <- Zlt_Qlt in H3. lia.
Qed.

Lemma round_half_even_tie (x : Q) (k : Z) :
  x == inject_Z k + (1 # 2) ->
  Z.even (Py.round_half_even x) = true.
Proof.
  intros E. rewrite (round_half_even_comp _ _ E).
  unfold Py.round_half_even.
  assert (F : Qfloor (inject_Z k + (1 # 2)) = k).
  { apply Qfloor_unique; lra. }
  rewrite F.
  assert (C : Qcompare (inject_Z k + (1 # 2) - inject_Z k) (1 # 2) = Eq).
  { apply Qeq_alt. lra. }
  rewrite C.
  destruct (Z.even k) eqn:Ek; [assumption|].
  rewrite Z.even_add, Ek. reflexivity.
Qed.

Lemma pow10_pos (n : nat) : (0 < Py.pow10 n)%Z.
Proof. unfold Py.pow10. apply Z.pow_pos_nonneg; lia. Qed.

Lemma round_scaled (x : Q) (n : nat) :
  Py.round x n * inject_Z (Py.pow10 n)
  == inject_Z (Py.round_half_even (x * inject_Z (Py.pow10 n))).
Proof.
  unfold Py.round. pose proof (pow10_pos n) as Hp.
  destruct (Py.pow10 n) as [|p|p]; try lia.
  unfold Qeq, Qmult, inject_Z. simpl. lia.
Qed.

(** The rounded value is a whole number of units of [10 ** -n], at most half
    a unit away from its argument. *)
Lemma round_error (x : Q) (n : nat) :
  Qabs (Py.round x n - x) * inject_Z (Py.pow10 n) <= 1 # 2.
Proof.
  pose proof (pow10_pos n) as Hp.
  assert (Hq : 0 < inject_Z (Py.pow10 n)).
  { change 0 with (inject_Z 0). rewrite <- Zlt_Qlt. assumption. }
  pose proof (round_half_even_error (x * inject_Z (Py.pow10 n))) as H.
  rewrite <- round_scaled in H.
  assert (E : Py.round x n * inject_Z (Py.pow10 n) - x * inject_Z (Py.pow10 n)
              == (Py.round x n - x) * inject_Z (Py.pow10 n)) by ring.
  rewrite E, Qabs_Qmult in H.
  rewrite (Qabs_pos (inject_Z (Py.pow10 n))) in H by lra.
  exact H.
Qed.

Lemma round_zero (x : Q) (n : nat) : x == 0 -> Py.round x n == 0.
Proof.
  intros E. rewrite (round_comp x 0 n E).
  unfold Py.round, Py.round_half_even. simpl.
  unfold Qeq. simpl. reflexivity.
Qed.

Lemma pow_10_m6 : Py.pow 10 (-6) = Ok (10 ^ (-6)).
Proof. reflexivity. Qed.

Lemma pow_10_m3 : Py.pow 10 (-3) = Ok (10 ^ (-3)).
Proof. reflexivity. Qed.

Lemma truediv_1000 (x : Q) : Py.truediv x 1000 = Ok (x / 1000).
Proof. reflexivity. Qed.

(* ================================================================== *)
(** ** BeamQuantities: concrete volume *)

Lemma exact_agrees (d : BeamDesign) (p : BeamQuantities.property) :
  BeamQuantities.get d p = QuantitiesOver.get Exact.arith (measures d) p.
Proof. destruct p; reflexivity. Qed.

Section ConcreteVolume.

Variable A : Arith.t.
Variable m : Measures (Arith.num A).

Local Notation "x * y" := (Arith.mul A x y) : num_scope.
Local Notation "b ** e" := (Arith.int_pow A b e)
  (at level 30, right associativity) : num_scope.
Local Open Scope num_scope.

(** C4: in every arithmetic, and so in Python's floats, [conc_volume]
    returns round(width * depth * 10**-6 * span * 10**-3, 3), the
    operations taken in that order.  In exact arithmetic the value lies
    within half a thousandth of the concrete area in square metres times
    the span in metres.  At the rounding boundary the float code follows
    the binary value of the product: 400 x 750 x 8619 gives 2.586, while
    100 x 50 x 100 (exactly 0.0005 m3) gives 0.001 and 600 x 500 x 12185
    (exactly 3.6555 m3) gives 3.655. *)
Theorem conc_volume_formula :
  QuantitiesOver.conc_volume A m
  = Ok (Arith.round A
          (m_width m * m_depth m * 10 ** (-6) * m_span m * 10 ** (-3)) 3)
  /\ (forall d : BeamDesign,
        BeamQuantities.conc_volume d
        = QuantitiesOver.conc_volume Exact.arith (measures d))
  /\ (forall d : BeamDesign,
        exists v : Q,
          QuantitiesOver.conc_volume Exact.arith (measures d) = Ok v
          /\ (Qabs (v - exact_conc_volume (beam d)) <= 1 # 2000)%Q)
  /\ QuantitiesOver.conc_volume Binary64.arith (Binary64.plain 400 750 8619)
     = Ok (Binary64.decimal 2586 3)
  /\ QuantitiesOver.conc_volume Binary64.arith (Binary64.plain 100 50 100)
     = Ok (Binary64.decimal 1 3)
  /\ QuantitiesOver.conc_volume Binary64.arith (Binary64.plain 600 500 12185)
     = Ok (Binary64.decimal 3655 3).
Proof.
  split; [reflexivity|].
  split; [intros d; reflexivity|].
  split.
  - intros d.
    exists (Py.round (width (beam d) * depth (beam d) * 10 ^ (-6)
                      * span (beam d) * 10 ^ (-3))%Q 3).
    split; [reflexivity|].
    assert (E : (width (beam d) * depth (beam d) * 10 ^ (-6)
                 * span (beam d) * 10 ^ (-3)
                 == exact_conc_volume (beam d))%Q).
    { unfold exact_conc_volume. change (10 ^ (-6))%Q with (1 # 1000000).
      change (10 ^ (-3))%Q with (1 # 1000). field. }
    rewrite (round_comp _ _ 3 E).
    pose proof (round_error (exact_conc_volume (beam d)) 3) as He.
    change (inject_Z (Py.pow10 3)) with 1000%Q in He.
    set (a := Qabs _) in *. lra.
  - repeat split; vm_compute; reflexivity.
Qed.

End ConcreteVolume.

(** The same inputs in exact arithmetic: the two ties go to the even
    thousandth. *)
Example conc_volume_exact_ties :
  QuantitiesOver.conc_volume Exact.arith
    (mkMeasures 100 50 100 (mkPosDict 0 0 0) (mkPosDict 0 0 0)
                (mkPosDict 0 0 0) 0)
  = Ok (0 # 1000)
  /\ QuantitiesOver.conc_volume Exact.arith
       (mkMeasures 600 500 12185 (mkPosDict 0 0 0) (mkPosDict 0 0 0)
                   (mkPosDict 0 0 0) 0)
     = Ok (3656 # 1000).
Proof. split; vm_compute; reflexivity. Qed.

(* ================================================================== *)
(** ** BeamQuantities: reinforcement volumes *)

(** C5, as stated, fails on the reference case: the six provided areas sum
    to 8979 mm2, so the single-rounding formula gives 0.077 m3, while
    [flex_volume] returns 0.078 m3, computed from the area already rounded
    to 0.009 m2. *)
Lemma flex_volume_single_rounding_fails :
  flex_provided_sum asserted_design == 8979
  /\ volume_of_area (flex_provided_sum asserted_design)
                    (span (beam asserted_design)) = 77 # 1000
  /\ BeamQuantities.flex_area asserted_design = Ok (9 # 1000)
  /\ BeamQuantities.flex_volume asserted_design = Ok (78 # 1000)
  /\ ~ (forall d : BeamDesign,
          BeamQuantities.flex_volume d
          = Ok (volume_of_area (flex_provided_sum d) (span (beam d)))).
Proof.
  split; [reflexivity|].
  split; [vm_compute; reflexivity|].
  split; [vm_compute; reflexivity|].
  split; [vm_compute; reflexivity|].
  intros H. specialize (H asserted_design).
  vm_compute in H. discriminate H.
Qed.

Lemma shear_volume_eq (d : BeamDesign) :
  BeamQuantities.shear_volume d
  = Ok (volume_of_area (links_provided_sum d) (span (beam d))).
Proof.
  unfold BeamQuantities.shear_volume, BeamQuantities.shear_volume_try.
  rewrite !truediv_1000, pow_10_m6. cbn [Py.bind Py.try_except_zde].
  f_equal. unfold volume_of_area. apply round_comp.
  unfold links_provided_sum. cbn zeta.
  change (10 ^ (-6)) with (1 # 1000000).
  change (10 ^ (-3)) with (1 # 1000). field.
Qed.

Lemma total_rebar_volume_eq (d : BeamDesign) :
  BeamQuantities.total_rebar_volume d
  = Ok (Py.round
          (Py.round (Py.round (flex_provided_sum d * 10 ^ (-6)) 3
                     * span (beam d) * 10 ^ (-3)) 3
           + volume_of_area (links_provided_sum d) (span (beam d))
           + volume_of_area
               (side_provided_reinf (sideface_rebar (sideface_design d)))
               (span (beam d))) 3).
Proof.
  unfold BeamQuantities.total_rebar_volume.
  rewrite shear_volume_eq. reflexivity.
Qed.

Section RebarVolumes.

Variable A : Arith.t.
Variable m : Measures (Arith.num A).

Local Notation "x + y" := (Arith.add A x y) : num_scope.
Local Notation "x * y" := (Arith.mul A x y) : num_scope.
Local Notation "x / y" := (Arith.div A x y) : num_scope.
Local Notation "b ** e" := (Arith.int_pow A b e)
  (at level 30, right associativity) : num_scope.
Local Open Scope num_scope.

(** C5, amended: in every arithmetic, and so in Python's floats,
    [sideface_volume] is round(provided * 10**-6 * span * 10**-3, 3);
    [flex_volume] is round(flex_area * span * 10**-3, 3), where [flex_area]
    is the sum of the six provided areas times 10**-6 already rounded to 3
    decimals; [shear_volume] is round((left * (span / 1000) + middle *
    (span / 1000) + right * (span / 1000)) * 10**-6, 3); and
    [total_rebar_volume] is the sum of these three rounded volumes, rounded
    to 3 decimals. *)
Theorem rebar_volumes_formula :
  let flex_area :=
    Arith.round A
      ((lookup (m_top m) left + lookup (m_top m) middle
        + lookup (m_top m) right + lookup (m_bot m) left
        + lookup (m_bot m) middle + lookup (m_bot m) right)
       * 10 ** (-6)) 3 in
  let flex_volume := Arith.round A (flex_area * m_span m * 10 ** (-3)) 3 in
  let shear_volume :=
    Arith.round A
      ((lookup (m_links m) left * (m_span m / Arith.lit A 1000)
        + lookup (m_links m) middle * (m_span m / Arith.lit A 1000)
        + lookup (m_links m) right * (m_span m / Arith.lit A 1000))
       * 10 ** (-6)) 3 in
  let sideface_volume :=
    Arith.round A (m_side m * 10 ** (-6) * m_span m * 10 ** (-3)) 3 in
  QuantitiesOver.sideface_volume A m = Ok sideface_volume
  /\ QuantitiesOver.flex_area A m = Ok flex_area
  /\ QuantitiesOver.flex_volume A m = Ok flex_volume
  /\ QuantitiesOver.shear_volume A m = Ok shear_volume
  /\ QuantitiesOver.total_rebar_volume A m
     = Ok (Arith.round A (flex_volume + shear_volume + sideface_volume) 3)
  /\ (forall (d : BeamDesign) (p : BeamQuantities.property),
        BeamQuantities.get d p
        = QuantitiesOver.get Exact.arith (measures d) p).
Proof.
  intros flex_area flex_volume shear_volume sideface_volume.
  assert (Hs : QuantitiesOver.shear_volume A m = Ok shear_volume).
  { unfold QuantitiesOver.shear_volume, QuantitiesOver.shear_volume_try,
      Arith.truediv.
    rewrite (Arith.lit_1000_not_zero A). reflexivity. }
  split; [reflexivity|].
  split; [reflexivity|].
  split; [reflexivity|].
  split; [exact Hs|].
  split; [|exact exact_agrees].
  unfold QuantitiesOver.total_rebar_volume. rewrite Hs. reflexivity.
Qed.

End RebarVolumes.

(** The reference case in floats: the six provided areas sum to 8979 mm2,
    [flex_area] is 0.009 and [flex_volume] 0.078; and a case where the
    link areas times the span, added up, round differently from their sum
    times the span. *)
Example rebar_volumes_in_floats :
  let reference :=
    Binary64.beam_of 400 750 8619 (mkPosDict 2076 942 2076)%Z
                     (mkPosDict 1473 1206 1206)%Z
                     (mkPosDict 1810 905 1810)%Z 806 in
  QuantitiesOver.flex_area Binary64.arith reference
  = Ok (Binary64.decimal 9 3)
  /\ QuantitiesOver.flex_volume Binary64.arith reference
     = Ok (Binary64.decimal 78 3)
  /\ QuantitiesOver.shear_volume Binary64.arith
       (Binary64.beam_of 400 750 5000 (mkPosDict 0 0 0)%Z (mkPosDict 0 0 0)%Z
                         (mkPosDict 2081 1405 2414)%Z 0)
     = Ok (Binary64.decimal 29 3).
Proof. repeat split; vm_compute; reflexivity. Qed.

(* ================================================================== *)
(** ** BeamQuantities: shear volume and division by zero *)

Section ShearVolume.

Variable A : Arith.t.
Variable m : Measures (Arith.num A).

Local Notation "x + y" := (Arith.add A x y) : num_scope.
Local Notation "x * y" := (Arith.mul A x y) : num_scope.
Local Notation "x / y" := (Arith.div A x y) : num_scope.
Local Notation "b ** e" := (Arith.int_pow A b e)
  (at level 30, right associativity) : num_scope.
Local Open Scope num_scope.

(** C9: [shear_volume] is total, in every arithmetic and so in Python's
    floats.  Its only divisors are the literal 1000, which is not zero, and
    its only power is 10**-6, so the body of its [try] block returns a
    value for every input and the [ZeroDivisionError] handler is never
    taken (whatever the handler returns, the result is that of the body);
    the result is round((left * (span / 1000) + middle * (span / 1000) +
    right * (span / 1000)) * 10**-6, 3). *)
Theorem shear_volume_total :
  let v :=
    Arith.round A
      ((lookup (m_links m) left * (m_span m / Arith.lit A 1000)
        + lookup (m_links m) middle * (m_span m / Arith.lit A 1000)
        + lookup (m_links m) right * (m_span m / Arith.lit A 1000))
       * 10 ** (-6)) 3 in
  QuantitiesOver.shear_volume_try A m = Ok v
  /\ (forall handler : Result (Arith.num A),
        Py.try_except_zde (QuantitiesOver.shear_volume_try A m) handler
        = QuantitiesOver.shear_volume_try A m)
  /\ QuantitiesOver.shear_volume A m = Ok v
  /\ (forall d : BeamDesign,
        BeamQuantities.shear_volume_try d
        = QuantitiesOver.shear_volume_try Exact.arith (measures d)).
Proof.
  intros v.
  assert (H : QuantitiesOver.shear_volume_try A m = Ok v).
  { unfold QuantitiesOver.shear_volume_try, Arith.truediv.
    rewrite (Arith.lit_1000_not_zero A). reflexivity. }
  split; [exact H|].
  split; [intros handler; rewrite H; reflexivity|].
  split; [unfold QuantitiesOver.shear_volume; rewrite H; reflexivity|].
  intros d. reflexivity.
Qed.

End ShearVolume.

(** In floats: link areas 1000, 500, 1000 over a span of 1000 give 0.003,
    and the reference links over the reference span 0.039. *)
Example shear_volume_in_floats :
  QuantitiesOver.shear_volume Binary64.arith
    (Binary64.beam_of 400 750 1000 (mkPosDict 0 0 0)%Z (mkPosDict 0 0 0)%Z
                      (mkPosDict 1000 500 1000)%Z 0)
  = Ok (Binary64.decimal 3 3)
  /\ QuantitiesOver.shear_volume Binary64.arith
       (Binary64.beam_of 400 750 8619 (mkPosDict 0 0 0)%Z (mkPosDict 0 0 0)%Z
                         (mkPosDict 1810 905 1810)%Z 0)
     = Ok (Binary64.decimal 39 3).
Proof. split; vm_compute; reflexivity. Qed.

Lemma quantity_returns (d : BeamDesign) (p : BeamQuantities.property) :
  exists v : Q, BeamQuantities.get d p = Ok v.
Proof.
  destruct p; cbn [BeamQuantities.get]; eexists; reflexivity.
Qed.

Lemma volume_of_area_zero_span (a sp : Q) :
  sp == 0 -> volume_of_area a sp == 0.
Proof.
  intros E. unfold volume_of_area. apply round_zero. rewrite E. ring.
Qed.

(** C3: no quantity property propagates a division-by-zero error: each of
    them returns a value for every designed beam; a [ZeroDivisionError]
    raised inside the [try] block of [shear_volume] is turned into 0 by its
    handler; and for a zero span every volume is reported as 0. *)
Theorem quantities_never_raise (d : BeamDesign) (p : BeamQuantities.property) :
  (exists v : Q,
     BeamQuantities.get d p = Ok v
     /\ (span (beam d) == 0 -> BeamQuantities.is_volume p = true -> v == 0))
  /\ Py.try_except_zde (Raise ZeroDivisionError) (Ok 0) = Ok 0.
Proof.
  split; [|reflexivity].
  destruct p; cbn [BeamQuantities.get BeamQuantities.is_volume];
    try (eexists; split; [reflexivity | intros _ F; discriminate F]).
  - exists (Py.round (width (beam d) * depth (beam d) * 10 ^ (-6)
                      * span (beam d) * 10 ^ (-3)) 3).
    split; [reflexivity|]. intros E _.
    apply round_zero. rewrite E. ring.
  - exists (Py.round (Py.round (flex_provided_sum d * 10 ^ (-6)) 3
                      * span (beam d) * 10 ^ (-3)) 3).
    split; [reflexivity|]. intros E _.
    apply round_zero. rewrite E. ring.
  - eexists; split; [apply shear_volume_eq|]. intros E _.
    apply volume_of_area_zero_span, E.
  - exists (volume_of_area
              (side_provided_reinf (sideface_rebar (sideface_design d)))
              (span (beam d))).
    split; [reflexivity|]. intros E _.
    apply volume_of_area_zero_span, E.
  - eexists; split; [apply total_rebar_volume_eq|]. intros E _.
    apply round_zero.
    rewrite (volume_of_area_zero_span _ _ E), (volume_of_area_zero_span _ _ E).
    assert (Z0 : Py.round
                   (Py.round (flex_provided_sum d * 10 ^ (-6)) 3
                    * span (beam d) * 10 ^ (-3)) 3 == 0).
    { apply round_zero. rewrite E. ring. }
    rewrite Z0. ring.
Qed.

(* ================================================================== *)
(** ** What the reference tests fix *)








(* ================================================================== *)
(** ** get_beam_table *)

(** C10: [get_beam_table] returns one fixed pair.  The beam schedule has no
    index and no rows, and 45 pairwise distinct column tuples in the order
    of the source, from ("Storey", empty) to ("Shear R Criteria",
    "Utilization (%)"); the quantities frame has the single index label 0,
    15 pairwise distinct column names and one row of 15 cells, all
    [None]. *)
Theorem get_beam_table_constant :
  let schedule := fst (BeamTable.get_beam_table tt) in
  let quantities := snd (BeamTable.get_beam_table tt) in
  (forall u v : unit, BeamTable.get_beam_table u = BeamTable.get_beam_table v)
  /\ BeamTable.index schedule = []
  /\ BeamTable.rows schedule = []
  /\ List.length (BeamTable.columns schedule) = 45%nat
  /\ BeamTable.nodupb BeamTable.label_eq_dec (BeamTable.columns schedule)
     = true
  /\ hd_error (BeamTable.columns schedule) = Some ("Storey", EmptyString)%string
  /\ nth_error (BeamTable.columns schedule) 11
     = Some ("Side Face Reinforcement", EmptyString)%string
  /\ nth_error (BeamTable.columns schedule) 44
     = Some ("Shear R Criteria", "Utilization (%)")%string
  /\ BeamTable.index quantities = [0%Z]
  /\ List.length (BeamTable.columns quantities) = 15%nat
  /\ BeamTable.nodupb string_dec (BeamTable.columns quantities) = true
  /\ BeamTable.rows quantities = [repeat BeamTable.PyNone 15].
Proof.
  intros schedule quantities.
  split; [intros [] []; reflexivity|].
  repeat split; vm_compute; reflexivity.
Qed.

(* ================================================================== *)
(** ** More on rounding *)

Lemma round_half_even_bounds (x : Q) :
  (Qfloor x <= Py.round_half_even x <= Qfloor x + 1)%Z.
Proof.
  unfold Py.round_half_even.
  destruct (Qcompare (x - inject_Z (Qfloor x)) (1 # 2));
    [destruct (Z.even (Qfloor x))| |]; lia.
Qed.

Ltac compared H :=
  match type of H with
  | Qcompare _ _ = Eq => apply Qeq_alt in H
  | Qcompare _ _ = Lt => apply Qlt_alt in H
  | Qcompare _ _ = Gt => apply Qgt_alt in H
  end.

Lemma round_half_even_mono (x y : Q) :
  x <= y -> (Py.round_half_even x <= Py.round_half_even y)%Z.
Proof.
  intros Hxy.
  pose proof (Qfloor_resp_le _ _ Hxy) as Hf.
  pose proof (round_half_even_bounds x) as Bx.
  pose proof (round_half_even_bounds y) as By.
  destruct (Z.eq_dec (Qfloor x) (Qfloor y)) as [E|N]; [|lia].
  clear Bx By Hf. unfold Py.round_half_even. rewrite <- E.
  destruct (Qcompare (x - inject_Z (Qfloor x)) (1 # 2)) eqn:Cx;
    destruct (Qcompare (y - inject_Z (Qfloor x)) (1 # 2)) eqn:Cy;
    compared Cx; compared Cy;
    try (destruct (Z.even (Qfloor x))); try lia; exfalso; lra.
Qed.

Lemma round_half_even_Z (k : Z) : Py.round_half_even (inject_Z k) = k.
Proof.
  unfold Py.round_half_even. rewrite Qfloor_Z.
  assert (C : Qcompare (inject_Z k - inject_Z k) (1 # 2) = Lt).
  { apply (proj1 (Qlt_alt _ _)). lra. }
  rewrite C. reflexivity.
Qed.

Lemma Qmake_le (a b : Z) (p : positive) : (a <= b)%Z -> Qmake a p <= Qmake b p.
Proof.
  intros H. unfold Qle. simpl. apply Z.mul_le_mono_nonneg_r; lia.
Qed.

Lemma pow10_Qpos (n : nat) : 0 < inject_Z (Py.pow10 n).
Proof.
  change 0 with (inject_Z 0). rewrite <- Zlt_Qlt. apply pow10_pos.
Qed.

Lemma round_mono (x y : Q) (n : nat) :
  x <= y -> Py.round x n <= Py.round y n.
Proof.
  intros H. unfold Py.round. apply Qmake_le, round_half_even_mono.
  apply Qmult_le_compat_r; [assumption|].
  apply Qlt_le_weak, pow10_Qpos.
Qed.

Lemma round_nonneg (x : Q) (n : nat) : 0 <= x -> 0 <= Py.round x n.
Proof.
  intros H. apply Qle_trans with (Py.round 0 n).
  - rewrite (round_zero 0 n); [apply Qle_refl | reflexivity].
  - apply round_mono, H.
Qed.

(** A whole number of units of [10 ** -n] is left as it is. *)
Lemma round_fixed (x : Q) (n : nat) (k : Z) :
  x * inject_Z (Py.pow10 n) == inject_Z k -> Py.round x n == x.
Proof.
  intros E.
  pose proof (round_scaled x n) as S.
  rewrite (round_half_even_comp _ _ E), round_half_even_Z, <- E in S.
  apply Qmult_inj_r in S; [exact S|].
  pose proof (pow10_Qpos n). lra.
Qed.

Lemma round_half_even_zero_iff (y : Q) :
  Py.round_half_even y = 0%Z <-> - (1 # 2) <= y <= 1 # 2.
Proof.
  split.
  - intros E. pose proof (round_half_even_error y) as H.
    rewrite E in H. apply Qabs_Qle_condition in H.
    change (inject_Z 0) with 0 in H. split; lra.
  - intros [Hlo Hhi].
    pose proof (round_half_even_mono _ _ Hlo) as L.
    pose proof (round_half_even_mono _ _ Hhi) as U.
    change (Py.round_half_even (- (1 # 2))) with 0%Z in L.
    change (Py.round_half_even (1 # 2)) with 0%Z in U.
    lia.
Qed.

(** A value rounds to 0 exactly when it is at most half a unit of
    [10 ** -n] away from 0. *)
Lemma round_zero_iff (x : Q) (n : nat) :
  Py.round x n == 0
  <-> - (1 # 2) <= x * inject_Z (Py.pow10 n) <= 1 # 2.
Proof.
  rewrite <- round_half_even_zero_iff.
  pose proof (round_scaled x n) as S.
  pose proof (pow10_Qpos n) as P.
  split.
  - intros E. rewrite E in S.
    assert (Z0 : inject_Z 0
                 == inject_Z (Py.round_half_even
                                (x * inject_Z (Py.pow10 n)))).
    { rewrite <- S. change (inject_Z 0) with 0. ring. }
    apply (proj1 (inject_Z_injective _ _)) in Z0. symmetry. exact Z0.
  - intros E. rewrite E in S. change (inject_Z 0) with 0 in S.
    apply Qmult_integral in S. destruct S as [S|S]; [exact S | lra].
Qed.

(* ================================================================== *)
(** ** The quantities as numbers *)

Lemma get_quantity (d : BeamDesign) (p : BeamQuantities.property) :
  BeamQuantities.get d p = Ok (quantity d p).
Proof. destruct p; reflexivity. Qed.

Import BeamQuantities.

Lemma conc_area_value (d : BeamDesign) :
  quantity d Pconc_area = width (beam d) * depth (beam d) * (1 # 1000000).
Proof. reflexivity. Qed.

Lemma conc_volume_value (d : BeamDesign) :
  quantity d Pconc_volume
  = Py.round (quantity d Pconc_area * span (beam d) * (1 # 1000)) 3.
Proof. reflexivity. Qed.

Lemma flex_area_value (d : BeamDesign) :
  quantity d Pflex_area = Py.round (flex_provided_sum d * (1 # 1000000)) 3.
Proof. reflexivity. Qed.

Lemma flex_volume_value (d : BeamDesign) :
  quantity d Pflex_volume
  = Py.round (quantity d Pflex_area * span (beam d) * (1 # 1000)) 3.
Proof. reflexivity. Qed.

Lemma shear_area_value (d : BeamDesign) :
  quantity d Pshear_area = Py.round (links_provided_sum d * (1 # 1000000)) 3.
Proof. reflexivity. Qed.

Lemma shear_volume_value (d : BeamDesign) :
  quantity d Pshear_volume
  = Py.round (links_provided_sum d * (1 # 1000000) * span (beam d)
              * (1 # 1000)) 3.
Proof.
  unfold quantity. cbn [get]. rewrite shear_volume_eq. reflexivity.
Qed.

Lemma sideface_area_value (d : BeamDesign) :
  quantity d Psideface_area
  = side_provided_reinf (sideface_rebar (sideface_design d)) * (1 # 1000000).
Proof. reflexivity. Qed.

Lemma sideface_volume_value (d : BeamDesign) :
  quantity d Psideface_volume
  = Py.round (quantity d Psideface_area * span (beam d) * (1 # 1000)) 3.
Proof. reflexivity. Qed.

Lemma total_rebar_area_value (d : BeamDesign) :
  quantity d Ptotal_rebar_area
  = Py.round (quantity d Pflex_area + quantity d Pshear_area
              + quantity d Psideface_area) 3.
Proof. reflexivity. Qed.

Lemma total_rebar_volume_value (d : BeamDesign) :
  quantity d Ptotal_rebar_volume
  = Py.round (quantity d Pflex_volume + quantity d Pshear_volume
              + quantity d Psideface_volume) 3.
Proof.
  unfold quantity at 1. cbn [get]. rewrite total_rebar_volume_eq.
  rewrite flex_volume_value, shear_volume_value, sideface_volume_value,
    flex_area_value, sideface_area_value.
  reflexivity.
Qed.


Lemma sums_nonneg (d : BeamDesign) :
  nonneg_design d -> 0 <= flex_provided_sum d /\ 0 <= links_provided_sum d.
Proof.
  intros (_ & _ & H & _).
  pose proof (H left) as (Tl & Bl & Ll).
  pose proof (H middle) as (Tm & Bm & Lm).
  pose proof (H right) as (Tr & Br & Lr).
  unfold flex_provided_sum, links_provided_sum. cbv zeta. split; lra.
Qed.

Lemma quantity_nonneg (d : BeamDesign) (p : property) :
  nonneg_design d -> 0 <= span (beam d) -> 0 <= quantity d p.
Proof.
  intros N Hs.
  destruct (sums_nonneg d N) as [Hf Hl].
  destruct N as (Hw & Hd & _ & Hsd).
  assert (Ca : 0 <= quantity d Pconc_area)
    by (rewrite conc_area_value; nra).
  assert (Fa : 0 <= quantity d Pflex_area)
    by (rewrite flex_area_value; apply round_nonneg; lra).
  assert (Sa : 0 <= quantity d Pshear_area)
    by (rewrite shear_area_value; apply round_nonneg; lra).
  assert (Da : 0 <= quantity d Psideface_area)
    by (rewrite sideface_area_value; lra).
  assert (Fv : 0 <= quantity d Pflex_volume)
    by (rewrite flex_volume_value; apply round_nonneg; nra).
  assert (Sv : 0 <= quantity d Pshear_volume)
    by (rewrite shear_volume_value; apply round_nonneg; nra).
  assert (Dv : 0 <= quantity d Psideface_volume)
    by (rewrite sideface_volume_value; apply round_nonneg; nra).
  destruct p; try assumption.
  - rewrite conc_volume_value. apply round_nonneg. nra.
  - rewrite total_rebar_area_value. apply round_nonneg. lra.
  - rewrite total_rebar_volume_value. apply round_nonneg. lra.
Qed.

(* ================================================================== *)
(** ** Further properties of BeamQuantities *)

(** X1: for a design with non-negative width, depth, span and provided
    areas, every one of the ten quantity properties returns a value, and
    that value is never negative. *)
Theorem quantities_nonnegative (d : BeamDesign) (p : property) :
  nonneg_design d -> 0 <= span (beam d) ->
  exists v : Q, get d p = Ok v /\ 0 <= v.
Proof.
  intros N Hs. exists (quantity d p).
  split; [apply get_quantity | apply quantity_nonneg; assumption].
Qed.

Lemma asserted_design_nonneg : nonneg_design asserted_design.
Proof.
  unfold nonneg_design.
  split; [vm_compute; discriminate|].
  split; [vm_compute; discriminate|].
  split; [|vm_compute; discriminate].
  intros p; destruct p; repeat split; vm_compute; discriminate.
Defined.

Lemma quantities_nonnegative_witness :
  nonneg_design asserted_design
  /\ 0 <= span (beam asserted_design)
  /\ exists v : Q, get asserted_design Ptotal_rebar_volume = Ok v /\ 0 <= v.
Proof.
  assert (Hs : 0 <= span (beam asserted_design))
    by (vm_compute; discriminate).
  split; [exact asserted_design_nonneg|].
  split; [exact Hs|].
  exact (quantities_nonnegative asserted_design Ptotal_rebar_volume
           asserted_design_nonneg Hs).
Defined.

(** X2: lengthening the span never lowers a reported volume: for a design
    with non-negative width, depth and provided areas and spans s1 <= s2,
    each of the five volume properties returns for s1 a value that is at
    most the one it returns for s2. *)
Theorem volumes_monotone_in_span (d : BeamDesign) (s1 s2 : Q) (p : property) :
  nonneg_design d -> s1 <= s2 -> is_volume p = true ->
  exists v1 v2 : Q,
    get (with_span d s1) p = Ok v1
    /\ get (with_span d s2) p = Ok v2
    /\ v1 <= v2.
Proof.
  intros N Hs Hp.
  exists (quantity (with_span d s1) p), (quantity (with_span d s2) p).
  split; [apply get_quantity|]. split; [apply get_quantity|].
  destruct (sums_nonneg d N) as [Hf Hl].
  destruct N as (Hw & Hd & _ & Hsd).
  assert (Ca : 0 <= width (beam d) * depth (beam d) * (1 # 1000000)) by nra.
  assert (Fa : 0 <= Py.round (flex_provided_sum d * (1 # 1000000)) 3)
    by (apply round_nonneg; lra).
  assert (Cv : quantity (with_span d s1) Pconc_volume
               <= quantity (with_span d s2) Pconc_volume).
  { rewrite !conc_volume_value, !conc_area_value.
    cbn [with_span beam set_span span width depth].
    apply round_mono. nra. }
  assert (Fv : quantity (with_span d s1) Pflex_volume
               <= quantity (with_span d s2) Pflex_volume).
  { rewrite !flex_volume_value, !flex_area_value.
    change (flex_provided_sum (with_span d s1)) with (flex_provided_sum d).
    change (flex_provided_sum (with_span d s2)) with (flex_provided_sum d).
    cbn [with_span beam set_span span].
    apply round_mono. nra. }
  assert (Sv : quantity (with_span d s1) Pshear_volume
               <= quantity (with_span d s2) Pshear_volume).
  { rewrite !shear_volume_value.
    change (links_provided_sum (with_span d s1)) with (links_provided_sum d).
    change (links_provided_sum (with_span d s2)) with (links_provided_sum d).
    cbn [with_span beam set_span span].
    apply round_mono. nra. }
  assert (Dv : quantity (with_span d s1) Psideface_volume
               <= quantity (with_span d s2) Psideface_volume).
  { rewrite !sideface_volume_value, !sideface_area_value.
    cbn [with_span beam set_span span sideface_design].
    apply round_mono. nra. }
  destruct p; try discriminate Hp; try assumption.
  rewrite !total_rebar_volume_value. apply round_mono. lra.
Qed.

Lemma volumes_monotone_in_span_witness :
  nonneg_design asserted_design
  /\ 4000 <= 8619
  /\ exists v1 v2 : Q,
       get (with_span asserted_design 4000) Pflex_volume = Ok v1
       /\ get (with_span asserted_design 8619) Pflex_volume = Ok v2
       /\ v1 <= v2.
Proof.
  assert (Hs : 4000 <= 8619) by (vm_compute; discriminate).
  split; [exact asserted_design_nonneg|].
  split; [exact Hs|].
  exact (volumes_monotone_in_span asserted_design 4000 8619 Pflex_volume
           asserted_design_nonneg Hs eq_refl).
Defined.


(** X4: [flex_area] is reported as 0 whenever the six provided flexural
    areas sum to at most 499 mm2 in absolute value, and [flex_volume] is
    then 0 whatever the span; [flex_area] is not 0 whenever the sum is at
    least 501 mm2.  With a sum of exactly 500 mm2 the float code returns a
    [flex_area] of 0.001 and, for a span of 8619 mm, a [flex_volume] of
    0.009. *)
Theorem flex_area_vanishes (d : BeamDesign) :
  let tie :=
    Binary64.beam_of 400 750 8619 (mkPosDict 500 0 0)%Z (mkPosDict 0 0 0)%Z
                     (mkPosDict 0 0 0)%Z 0 in
  exists a v : Q,
    get d Pflex_area = Ok a
    /\ get d Pflex_volume = Ok v
    /\ (- (499) <= flex_provided_sum d <= 499 -> a == 0 /\ v == 0)
    /\ (flex_provided_sum d <= - (501) \/ 501 <= flex_provided_sum d ->
        ~ a == 0)
    /\ QuantitiesOver.flex_area Binary64.arith tie
       = Ok (Binary64.decimal 1 3)
    /\ QuantitiesOver.flex_volume Binary64.arith tie
       = Ok (Binary64.decimal 9 3).
Proof.
  intros tie.
  exists (quantity d Pflex_area), (quantity d Pflex_volume).
  split; [apply get_quantity|]. split; [apply get_quantity|].
  assert (Z : quantity d Pflex_area == 0
              <-> - (500) <= flex_provided_sum d <= 500).
  { rewrite flex_area_value, round_zero_iff.
    change (inject_Z (Py.pow10 3)) with 1000.
    split; intros [H1 H2]; split; lra. }
  split; [|split; [|split]].
  - intros [H1 H2].
    assert (E : quantity d Pflex_area == 0) by (apply Z; split; lra).
    split; [exact E|].
    rewrite flex_volume_value. apply round_zero. rewrite E. ring.
  - intros H E. apply Z in E. destruct E as [E1 E2].
    destruct H as [H|H]; lra.
  - vm_compute. reflexivity.
  - vm_compute. reflexivity.
Qed.

Lemma round3_error (x : Q) : Qabs (Py.round x 3 - x) <= 1 # 2000.
Proof.
  pose proof (round_error x 3) as H.
  change (inject_Z (Py.pow10 3)) with 1000 in H.
  set (a := Qabs _) in *. lra.
Qed.

Lemma Qabs_diff_bound (x y e : Q) :
  Qabs (x - y) <= e <-> y - e <= x <= y + e.
Proof.
  rewrite Qabs_Qle_condition. split; intros [H1 H2]; split; lra.
Qed.

(** Rounding an area to thousandths before multiplying by the span can
    move the product by up to half a thousandth times the span in metres. *)
Lemma double_rounding_bound (a sp : Q) :
  Qabs (Py.round (Py.round a 3 * sp * (1 # 1000)) 3 - a * sp * (1 # 1000))
  <= (1 # 2000) + Qabs sp * (1 # 2000000).
Proof.
  pose proof (round3_error (Py.round a 3 * sp * (1 # 1000))) as H1.
  pose proof (round3_error a) as H2.
  assert (H3 : Qabs ((Py.round a 3 - a) * (sp * (1 # 1000)))
               <= Qabs sp * (1 # 2000000)).
  { rewrite Qabs_Qmult, Qabs_Qmult.
    change (Qabs (1 # 1000)) with (1 # 1000).
    pose proof (Qabs_nonneg sp) as P.
    pose proof (Qabs_nonneg (Py.round a 3 - a)) as P2.
    set (u := Qabs (Py.round a 3 - a)) in *.
    set (w := Qabs sp) in *. nra. }
  apply Qabs_diff_bound in H1.
  apply Qabs_Qle_condition in H3.
  apply Qabs_diff_bound.
  set (w := Qabs sp) in *. set (r := Py.round a 3) in *.
  set (v := Py.round (r * sp * (1 # 1000)) 3) in *.
  split; lra.
Qed.

(** X5: [flex_volume] lies within 0.0005 + 0.0005 x (span in metres) of
    the exact volume, the sum of the six provided areas times 10**-6 times
    the span times 10**-3: the first term is its own rounding, the second
    the rounding already made in [flex_area]. *)
Theorem flex_volume_error (d : BeamDesign) :
  exists v : Q,
    get d Pflex_volume = Ok v
    /\ Qabs (v - flex_provided_sum d * (1 # 1000000) * span (beam d)
                 * (1 # 1000))
       <= (1 # 2000) + Qabs (span (beam d)) * (1 # 2000000).
Proof.
  exists (quantity d Pflex_volume).
  split; [apply get_quantity|].
  rewrite flex_volume_value, flex_area_value.
  apply double_rounding_bound.
Qed.

(** X8: [shear_volume] is not formed from [shear_area]: it rounds once,
    from the unrounded link areas, and so differs from shear_area x span x
    10**-3 by at most 0.0005 + 0.0005 x (span in metres). *)
Theorem shear_volume_and_area (d : BeamDesign) :
  exists a v : Q,
    get d Pshear_area = Ok a
    /\ get d Pshear_volume = Ok v
    /\ Qabs (v - links_provided_sum d * (1 # 1000000) * span (beam d)
                 * (1 # 1000)) <= 1 # 2000
    /\ Qabs (v - a * span (beam d) * (1 # 1000))
       <= (1 # 2000) + Qabs (span (beam d)) * (1 # 2000000).
Proof.
  exists (quantity d Pshear_area), (quantity d Pshear_volume).
  split; [apply get_quantity|]. split; [apply get_quantity|].
  rewrite shear_volume_value, shear_area_value.
  set (x := links_provided_sum d * (1 # 1000000)).
  set (sp := span (beam d)).
  pose proof (round3_error (x * sp * (1 # 1000))) as H1.
  split; [exact H1|].
  pose proof (round3_error x) as H2.
  assert (H3 : Qabs ((Py.round x 3 - x) * (sp * (1 # 1000)))
               <= Qabs sp * (1 # 2000000)).
  { rewrite Qabs_Qmult, Qabs_Qmult.
    change (Qabs (1 # 1000)) with (1 # 1000).
    pose proof (Qabs_nonneg sp) as P.
    pose proof (Qabs_nonneg (Py.round x 3 - x)) as P2.
    set (u := Qabs (Py.round x 3 - x)) in *.
    set (w := Qabs sp) in *. nra. }
  apply Qabs_diff_bound in H1.
  apply Qabs_Qle_condition in H3.
  apply Qabs_diff_bound.
  set (w := Qabs sp) in *. set (r := Py.round x 3) in *.
  set (v := Py.round (x * sp * (1 # 1000)) 3) in *.
  split; lra.
Qed.

Lemma round3_scaled (x : Q) :
  Py.round x 3 * 1000 == inject_Z (Py.round_half_even (x * 1000)).
Proof. exact (round_scaled x 3). Qed.

(** X6: the last rounding in [total_rebar_volume] changes nothing: the
    three volumes it adds are whole numbers of thousandths, so the total is
    exactly flex_volume + shear_volume + sideface_volume. *)
Theorem total_rebar_volume_is_sum (d : BeamDesign) :
  exists f s t total : Q,
    get d Pflex_volume = Ok f
    /\ get d Pshear_volume = Ok s
    /\ get d Psideface_volume = Ok t
    /\ get d Ptotal_rebar_volume = Ok total
    /\ total == f + s + t.
Proof.
  exists (quantity d Pflex_volume), (quantity d Pshear_volume),
    (quantity d Psideface_volume), (quantity d Ptotal_rebar_volume).
  repeat (split; [apply get_quantity|]).
  rewrite total_rebar_volume_value.
  rewrite flex_volume_value, shear_volume_value, sideface_volume_value.
  set (x := quantity d Pflex_area * span (beam d) * (1 # 1000)).
  set (y := links_provided_sum d * (1 # 1000000) * span (beam d)
            * (1 # 1000)).
  set (z := quantity d Psideface_area * span (beam d) * (1 # 1000)).
  apply round_fixed
    with (k := (Py.round_half_even (x * 1000)
                + Py.round_half_even (y * 1000)
                + Py.round_half_even (z * 1000))%Z).
  change (inject_Z (Py.pow10 3)) with 1000.
  rewrite !inject_Z_plus, <- !round3_scaled. ring.
Qed.


Lemma sums_monotone (d1 d2 : BeamDesign) :
  provides_no_less d1 d2 ->
  flex_provided_sum d1 <= flex_provided_sum d2
  /\ links_provided_sum d1 <= links_provided_sum d2.
Proof.
  intros (_ & H & _).
  pose proof (H left) as (Tl & Bl & Ll).
  pose proof (H middle) as (Tm & Bm & Lm).
  pose proof (H right) as (Tr & Br & Lr).
  unfold flex_provided_sum, links_provided_sum. cbv zeta. split; lra.
Qed.

(** X11: more steel never reports less: if two designs of the same beam,
    with a non-negative span, differ only in that the second provides at
    least the area of the first in every flexural slot, shear zone and on
    the side face, then each of the eight reinforcement quantities of the
    first is at most that of the second. *)
Theorem rebar_quantities_monotone (d1 d2 : BeamDesign) (p : property) :
  provides_no_less d1 d2 -> 0 <= span (beam d1) -> is_rebar p = true ->
  exists v1 v2 : Q, get d1 p = Ok v1 /\ get d2 p = Ok v2 /\ v1 <= v2.
Proof.
  intros M Hs Hp.
  exists (quantity d1 p), (quantity d2 p).
  split; [apply get_quantity|]. split; [apply get_quantity|].
  destruct (sums_monotone d1 d2 M) as [Hf Hl].
  destruct M as (Hb & _ & Hsd).
  assert (Fa : quantity d1 Pflex_area <= quantity d2 Pflex_area)
    by (rewrite !flex_area_value; apply round_mono; lra).
  assert (Sa : quantity d1 Pshear_area <= quantity d2 Pshear_area)
    by (rewrite !shear_area_value; apply round_mono; lra).
  assert (Da : quantity d1 Psideface_area <= quantity d2 Psideface_area)
    by (rewrite !sideface_area_value; lra).
  assert (Fv : quantity d1 Pflex_volume <= quantity d2 Pflex_volume).
  { rewrite !flex_volume_value, Hb. apply round_mono. nra. }
  assert (Sv : quantity d1 Pshear_volume <= quantity d2 Pshear_volume).
  { rewrite !shear_volume_value, Hb. apply round_mono. nra. }
  assert (Dv : quantity d1 Psideface_volume <= quantity d2 Psideface_volume).
  { rewrite !sideface_volume_value, Hb. apply round_mono. nra. }
  destruct p; try discriminate Hp; try assumption.
  - rewrite !total_rebar_area_value. apply round_mono. lra.
  - rewrite !total_rebar_volume_value. apply round_mono. lra.
Qed.

Lemma heavier_design_provides_more :
  provides_no_less asserted_design heavier_design.
Proof.
  unfold provides_no_less.
  split; [reflexivity|].
  split; [|apply Qle_refl].
  intros p; destruct p; repeat split; vm_compute; discriminate.
Defined.

Lemma rebar_quantities_monotone_witness :
  provides_no_less asserted_design heavier_design
  /\ 0 <= span (beam asserted_design)
  /\ get asserted_design Pflex_area = Ok (9 # 1000)
  /\ get heavier_design Pflex_area = Ok (11 # 1000)
  /\ exists v1 v2 : Q,
       get asserted_design Pflex_area = Ok v1
       /\ get heavier_design Pflex_area = Ok v2
       /\ v1 <= v2.
Proof.
  assert (Hs : 0 <= span (beam asserted_design))
    by (vm_compute; discriminate).
  split; [exact heavier_design_provides_more|].
  split; [exact Hs|].
  split; [vm_compute; reflexivity|].
  split; [vm_compute; reflexivity|].
  exact (rebar_quantities_monotone asserted_design heavier_design
           Pflex_area heavier_design_provides_more Hs eq_refl).
Defined.

(** X10: exchanging the width and the depth of the beam changes none of
    the ten quantities. *)
Theorem quantities_of_turned_beam (d : BeamDesign) (p : property) :
  exists v1 v2 : Q,
    get (turned d) p = Ok v1 /\ get d p = Ok v2 /\ v1 == v2.
Proof.
  exists (quantity (turned d) p), (quantity d p).
  split; [apply get_quantity|]. split; [apply get_quantity|].
  assert (Ca : quantity (turned d) Pconc_area == quantity d Pconc_area).
  { rewrite !conc_area_value. cbn [turned beam width depth]. ring. }
  destruct p; try reflexivity; try exact Ca.
  rewrite !conc_volume_value.
  change (span (beam (turned d))) with (span (beam d)).
  rewrite (round_comp _ (quantity d Pconc_area * span (beam d) * (1 # 1000)) 3);
    [reflexivity|].
  rewrite Ca. reflexivity.
Qed.

(* ================================================================== *)
(** ** The BeamQuantities object *)

Lemma view_init (d : BeamDesign) :
  QuantitiesObject.view (QuantitiesObject.init d) d = d.
Proof. destruct d as [[] f s sf]. reflexivity. Qed.

(** X9: a [BeamQuantities] object reads the geometry once, in [__init__],
    and the reinforcement each time a property is read.  If the design
    object has meanwhile come to state [now]: [conc_area] and [conc_volume]
    are still those of the design [d] it was built from; the four area
    properties of the reinforcement are those of [now]; the four
    reinforcement volumes are those of [now] taken with the span of [d];
    and with [now = d] every property is that of [d]. *)
Theorem quantities_object_reads (d now : BeamDesign) (p : property) :
  QuantitiesObject.read (QuantitiesObject.init d) d p = get d p
  /\ QuantitiesObject.read (QuantitiesObject.init d) now p
     = (if is_rebar p
        then if is_volume p
             then get (with_span now (span (beam d))) p
             else get now p
        else get d p).
Proof.
  split.
  - unfold QuantitiesObject.read. rewrite view_init. reflexivity.
  - destruct p; reflexivity.
Qed.

(* ================================================================== *)
(** ** What the quantities depend on *)

Lemma sums_same (d1 d2 : BeamDesign) :
  same_measures d1 d2 ->
  flex_provided_sum d1 == flex_provided_sum d2
  /\ links_provided_sum d1 == links_provided_sum d2.
Proof.
  intros (_ & _ & _ & H & _).
  pose proof (H left) as (Tl & Bl & Ll).
  pose proof (H middle) as (Tm & Bm & Lm).
  pose proof (H right) as (Tr & Br & Lr).
  unfold flex_provided_sum, links_provided_sum. cbv zeta.
  rewrite Tl, Tm, Tr, Bl, Bm, Br, Ll, Lm, Lr. split; reflexivity.
Qed.

(** X12: the ten quantities depend on nothing but the width, depth and
    span of the beam and the ten provided areas: two designs that agree on
    these thirteen numbers get equal values from every property, whatever
    their identity, concrete grade, demands, designations, utilizations and
    solved flags. *)
Theorem quantities_depend_on_measures (d1 d2 : BeamDesign) (p : property) :
  same_measures d1 d2 ->
  exists v1 v2 : Q, get d1 p = Ok v1 /\ get d2 p = Ok v2 /\ v1 == v2.
Proof.
  intros S.
  exists (quantity d1 p), (quantity d2 p).
  split; [apply get_quantity|]. split; [apply get_quantity|].
  destruct (sums_same d1 d2 S) as [Ef El].
  destruct S as (Ew & Ed & Es & _ & Esd).
  assert (Ca : quantity d1 Pconc_area == quantity d2 Pconc_area)
    by (rewrite !conc_area_value, Ew, Ed; reflexivity).
  assert (Fa : quantity d1 Pflex_area = quantity d2 Pflex_area)
    by (rewrite !flex_area_value; apply round_comp; rewrite Ef; reflexivity).
  assert (Sa : quantity d1 Pshear_area = quantity d2 Pshear_area)
    by (rewrite !shear_area_value; apply round_comp; rewrite El; reflexivity).
  assert (Da : quantity d1 Psideface_area == quantity d2 Psideface_area)
    by (rewrite !sideface_area_value, Esd; reflexivity).
  assert (Fv : quantity d1 Pflex_volume = quantity d2 Pflex_volume).
  { rewrite !flex_volume_value, Fa. apply round_comp.
    rewrite Es. reflexivity. }
  assert (Sv : quantity d1 Pshear_volume = quantity d2 Pshear_volume).
  { rewrite !shear_volume_value. apply round_comp.
    rewrite El, Es. reflexivity. }
  assert (Dv : quantity d1 Psideface_volume = quantity d2 Psideface_volume).
  { rewrite !sideface_volume_value. apply round_comp.
    rewrite Da, Es. reflexivity. }
  destruct p; try assumption;
    try (match goal with H : ?a = ?b |- ?a == ?b => rewrite H; reflexivity end).
  - rewrite !conc_volume_value.
    rewrite (round_comp _ (quantity d2 Pconc_area * span (beam d2)
                           * (1 # 1000)) 3); [reflexivity|].
    rewrite Ca, Es. reflexivity.
  - rewrite !total_rebar_area_value, Fa, Sa.
    rewrite (round_comp _ (quantity d2 Pflex_area + quantity d2 Pshear_area
                           + quantity d2 Psideface_area) 3); [reflexivity|].
    rewrite Da. reflexivity.
  - rewrite !total_rebar_volume_value, Fv, Sv, Dv. reflexivity.
Qed.

Lemma bare_design_same_measures : same_measures asserted_design bare_design.
Proof.
  unfold same_measures.
  split; [reflexivity|]. split; [reflexivity|]. split; [reflexivity|].
  split; [|reflexivity].
  intros p; destruct p; repeat split; reflexivity.
Defined.

Lemma quantities_depend_on_measures_witness :
  same_measures asserted_design bare_design
  /\ exists v1 v2 : Q,
       get asserted_design Pflex_volume = Ok v1
       /\ get bare_design Pflex_volume = Ok v2
       /\ v1 == v2.
Proof.
  split; [exact bare_design_same_measures|].
  exact (quantities_depend_on_measures asserted_design bare_design
           Pflex_volume bare_design_same_measures).
Defined.
